(** * SocketSupport: a C++/CLI shim over Winsock

    Shallow embedding of [src/SocketSupport/SocketSupport.cpp] and the
    properties of its four entry points: the static constructor
    [SocketSupport], [DuplicateStdinSocket], [EventSelectRead] and
    [EventSelectWrite] (both through the private [EventSelect]).

    The code is a sequence of Winsock / Win32 calls.  It is embedded in a
    state-and-exception monad that also records every operating-system call
    the code issues, with its arguments and its result.  The operating system
    is an interface ([Winsock]); the constants and macros of the Windows SDK
    headers the code includes through [stdafx.h] are an interface too
    ([WinSDK]).  Theorems hold for every implementation of both; a small
    simulated system ([SimOS]) instantiates them. *)

From Stdlib Require Import ZArith List Lia Bool Init.Byte.
From stdpp Require Import base option list gmap.
Import ListNotations.
Local Open Scope Z_scope.

(** ** Values *)

(** Pointer-sized quantities ([HANDLE], [SOCKET], [WSAEVENT], [IntPtr]) are
    represented by their value read as a signed pointer-width integer, the
    way [IntPtr] exposes it.  Casts among them keep the bit pattern, and the
    C++ cast of an [int] to [SOCKET] sign-extends; both are the identity on
    this representation. *)
Abbreviation HANDLE := Z (only parsing).
Abbreviation SOCKET := Z (only parsing).
Abbreviation WSAEVENT := Z (only parsing).
Abbreviation IntPtr := Z (only parsing).

(** A reference to a managed [array<byte>]. *)
Abbreviation array_ref := positive (only parsing).

(** [System::Net::Sockets::SocketInformation]: a value type with a reference
    to a byte array (null until assigned) and an options word. *)
Record SocketInformation := MkSocketInformation {
  ProtocolInformation : option array_ref;
  Options : Z
}.

(** [Microsoft::Win32::SafeHandles::SafeWaitHandle], as built by its
    constructor [SafeWaitHandle(IntPtr existingHandle, bool ownsHandle)]. *)
Record SafeWaitHandle := MkSafeWaitHandle {
  existingHandle : IntPtr;
  ownsHandle : bool
}.

(** The managed exceptions that can leave the code. *)
Inductive exn : Type :=
| SocketException (errorCode : Z)
| OverflowException
| TypeInitializationException (inner : exn).

(** ** The platform *)

(** Constants, macros and sizes the code takes from the Windows SDK and from
    the .NET class library. *)
Class WinSDK := {
  SOCKET_ERROR : Z;
  WSAENOTSOCK : Z;
  FD_READ : Z;
  FD_WRITE : Z;
  STD_INPUT_HANDLE : Z;
  MAKEWORD : Z -> Z -> Z;
  sizeof_WSAPROTOCOL_INFO : positive;
  Listening : Z
}.

(** The operating-system calls the code makes, as transitions of an abstract
    system state.  [os_WSADuplicateSocket] also yields the bytes the system
    stores through its [lpProtocolInfo] argument. *)
Class Winsock (World : Type) := {
  os_WSAStartup : Z -> World -> Z * World;
  os_GetStdHandle : Z -> World -> HANDLE * World;
  os_GetCurrentProcessId : World -> Z * World;
  os_WSADuplicateSocket : SOCKET -> Z -> World -> (Z * list Byte.byte) * World;
  os_WSAGetLastError : World -> Z * World;
  os_CloseHandle : HANDLE -> World -> Z * World;
  os_WSACreateEvent : World -> WSAEVENT * World;
  os_WSAEventSelect : SOCKET -> WSAEVENT -> Z -> World -> Z * World
}.

(** One operating-system call as the code issued it: arguments, then what
    the system answered. *)
Inductive os_call : Type :=
| WSAStartup_call (wVersionRequested : Z) (ret : Z)
| GetStdHandle_call (nStdHandle : Z) (ret : HANDLE)
| GetCurrentProcessId_call (ret : Z)
| WSADuplicateSocket_call (s : SOCKET) (dwProcessId : Z)
    (lpProtocolInfo : array_ref) (written : list Byte.byte) (ret : Z)
| WSAGetLastError_call (ret : Z)
| CloseHandle_call (hObject : HANDLE) (ret : Z)
| WSACreateEvent_call (ret : WSAEVENT)
| WSAEventSelect_call (s : SOCKET) (hEventObject : WSAEVENT)
    (lNetworkEvents : Z) (ret : Z).

(** State of the type initializer of the class, as the runtime keeps it. *)
Inductive type_init_state : Type :=
| NotInitialized
| Initialized
| InitFailed (e : exn).

(** Storing [data] through a pointer to the first element of a pinned array
    whose contents are [buf]: the array keeps its length. *)
Definition store_bytes (buf data : list Byte.byte) : list Byte.byte :=
  take (length buf) (data ++ drop (length data) buf).

(** ** Machine state and the monad *)

(** The managed heap holds the byte arrays; [out_result] is the caller's
    variable bound to the [[Out] SocketInformation%] parameter of
    [DuplicateStdinSocket], which the code writes through and which keeps
    what was written when the call ends by an exception. *)
Record Machine (World : Type) := MkMachine {
  os : World;
  heap : gmap array_ref (list Byte.byte);
  out_result : SocketInformation;
  type_init : type_init_state
}.
Arguments MkMachine {World} _ _ _ _.
Arguments os {World} _.
Arguments heap {World} _.
Arguments out_result {World} _.
Arguments type_init {World} _.

Inductive Outcome (A : Type) : Type :=
| Returned (a : A)
| Thrown (e : exn).
Arguments Returned {A} a.
Arguments Thrown {A} e.

(** What running a piece of code gives: how it ended, the machine it left,
    and the operating-system calls it made, oldest first. *)
Record Run (World A : Type) := MkRun {
  outcome : Outcome A;
  final : Machine World;
  calls : list os_call
}.
Arguments MkRun {World A} _ _ _.
Arguments outcome {World A} _.
Arguments final {World A} _.
Arguments calls {World A} _.

Definition M (World A : Type) : Type := Machine World -> Run World A.

#[global] Instance M_ret {World} : MRet (M World) := fun A a m =>
  MkRun (Returned a) m [].

#[global] Instance M_bind {World} : MBind (M World) := fun A B k c m =>
  let r := c m in
  match outcome r with
  | Returned a =>
      let r' := k a (final r) in
      MkRun (outcome r') (final r') (calls r ++ calls r')
  | Thrown e => MkRun (Thrown e) (final r) (calls r)
  end.

Definition throw {World A} (e : exn) : M World A := fun m =>
  MkRun (Thrown e) m [].

Definition set_os {World} (w : World) (m : Machine World) : Machine World :=
  MkMachine w (heap m) (out_result m) (type_init m).

Definition set_heap {World} (h : gmap array_ref (list Byte.byte))
    (m : Machine World) : Machine World :=
  MkMachine (os m) h (out_result m) (type_init m).

Definition set_out_result {World} (r : SocketInformation)
    (m : Machine World) : Machine World :=
  MkMachine (os m) (heap m) r (type_init m).

Definition set_type_init {World} (t : type_init_state)
    (m : Machine World) : Machine World :=
  MkMachine (os m) (heap m) (out_result m) t.

(** C# [checked((int)v)]: the value that fits, as a 32-bit signed integer. *)
Definition narrow_int32 (v : Z) : Z := (v + 2 ^ 31) mod 2 ^ 32 - 2 ^ 31.
Arguments narrow_int32 : simpl never.

Section Embedding.
Context {World : Type} `{SDK : WinSDK} `{OS : !Winsock World}.

(** ** Primitives *)

(** An operating-system call: run it on the system state, log it. *)
Definition syscall {A} (f : World -> A * World) (log : A -> os_call)
    : M World A := fun m =>
  let '(a, w) := f (os m) in MkRun (Returned a) (set_os w m) [log a].

Definition WSAStartup (wVersionRequested : Z) : M World Z :=
  syscall (os_WSAStartup wVersionRequested) (WSAStartup_call wVersionRequested).

Definition GetStdHandle (nStdHandle : Z) : M World HANDLE :=
  syscall (os_GetStdHandle nStdHandle) (GetStdHandle_call nStdHandle).

Definition GetCurrentProcessId : M World Z :=
  syscall os_GetCurrentProcessId GetCurrentProcessId_call.

Definition WSAGetLastError : M World Z :=
  syscall os_WSAGetLastError WSAGetLastError_call.

Definition CloseHandle (hObject : HANDLE) : M World Z :=
  syscall (os_CloseHandle hObject) (CloseHandle_call hObject).

Definition WSACreateEvent : M World WSAEVENT :=
  syscall os_WSACreateEvent WSACreateEvent_call.

Definition WSAEventSelect (s : SOCKET) (ev : WSAEVENT) (lNetworkEvents : Z)
    : M World Z :=
  syscall (os_WSAEventSelect s ev lNetworkEvents)
          (WSAEventSelect_call s ev lNetworkEvents).

(** [WSADuplicateSocket] gets a pointer into the managed array
    [lpProtocolInfo]: what the system stores goes into that array. *)
Definition WSADuplicateSocket (s : SOCKET) (dwProcessId : Z)
    (lpProtocolInfo : array_ref) : M World Z := fun m =>
  let '((r, data), w) := os_WSADuplicateSocket s dwProcessId (os m) in
  MkRun (Returned r)
    (set_heap (alter (fun buf => store_bytes buf data) lpProtocolInfo (heap m))
              (set_os w m))
    [WSADuplicateSocket_call s dwProcessId lpProtocolInfo data r].

(** [gcnew array<byte>(n)]: a new array of [n] zero bytes. *)
Definition gcnew_array (n : nat) : M World array_ref := fun m =>
  let a := fresh (dom (heap m)) in
  MkRun (Returned a) (set_heap (<[a := replicate n Byte.x00]> (heap m)) m) [].

(** [result.ProtocolInformation = a] and [result.Options = o]. *)
Definition assign_ProtocolInformation (a : array_ref) : M World unit := fun m =>
  MkRun (Returned tt)
    (set_out_result (MkSocketInformation (Some a) (Options (out_result m))) m) [].

Definition assign_Options (o : Z) : M World unit := fun m =>
  MkRun (Returned tt)
    (set_out_result
       (MkSocketInformation (ProtocolInformation (out_result m)) o) m) [].

(** [IntPtr::ToInt32]: the pointer-sized value narrowed to [int], with
    [OverflowException] when it does not fit.  In a 32-bit process every
    [IntPtr] fits. *)
Definition IntPtr_ToInt32 (p : IntPtr) : M World Z :=
  if decide (- 2 ^ 31 <= p < 2 ^ 31) then mret (narrow_int32 p)
  else throw OverflowException.

(** ** The code of SocketSupport.cpp *)

(** [static SocketSupport::SocketSupport()], lines 11-20. *)
Definition SocketSupport : M World unit :=
  let wVersionRequested := MAKEWORD 2 0 in
  err ← WSAStartup wVersionRequested;
  if decide (err = SOCKET_ERROR) then throw (SocketException err)
  else mret tt.

(** [bool SocketSupport::DuplicateStdinSocket([Out]SocketInformation% result)],
    lines 23-46.  [sizeof] of a C++ type is at least 1, so the element
    [protocolInfo[0]] whose address is pinned exists. *)
Definition DuplicateStdinSocket : M World bool :=
  protocolInfo ← gcnew_array (Pos.to_nat sizeof_WSAPROTOCOL_INFO);
  let infoPtr := protocolInfo in
  assign_ProtocolInformation protocolInfo;;
  assign_Options Listening;;
  oldHandle ← GetStdHandle STD_INPUT_HANDLE;
  pid ← GetCurrentProcessId;
  err ← WSADuplicateSocket oldHandle pid infoPtr;
  if decide (err = SOCKET_ERROR) then
    errCode ← WSAGetLastError;
    if decide (errCode = WSAENOTSOCK) then mret false
    else throw (SocketException errCode)
  else
    CloseHandle oldHandle;;
    mret true.

(** [SafeWaitHandle^ SocketSupport::EventSelect(IntPtr sInt, long eventMask)],
    lines 59-69. *)
Definition EventSelect (sInt : IntPtr) (eventMask : Z) : M World SafeWaitHandle :=
  i ← IntPtr_ToInt32 sInt;
  let s : SOCKET := i in
  ev ← WSACreateEvent;
  err ← WSAEventSelect s ev eventMask;
  if decide (err = SOCKET_ERROR) then throw (SocketException err)
  else mret (MkSafeWaitHandle ev true).

(** Lines 49-52 and 54-57. *)
Definition EventSelectRead (sInt : IntPtr) : M World SafeWaitHandle :=
  EventSelect sInt FD_READ.

Definition EventSelectWrite (sInt : IntPtr) : M World SafeWaitHandle :=
  EventSelect sInt FD_WRITE.

(** ** The runtime's type initialization

    A class with a static constructor is initialized by the runtime on
    the first access to a static member: the static constructor is run
    then, once.  When it throws, the access throws
    [TypeInitializationException] wrapping what it threw, and so does every
    later access, without running it again. *)
Definition static_call {A} (body : M World A) : M World A := fun m =>
  match type_init m with
  | Initialized => body m
  | InitFailed e => throw (TypeInitializationException e) m
  | NotInitialized =>
      let r := SocketSupport m in
      match outcome r with
      | Returned _ =>
          let r' := body (set_type_init Initialized (final r)) in
          MkRun (outcome r') (final r') (calls r ++ calls r')
      | Thrown e =>
          MkRun (Thrown (TypeInitializationException e))
                (set_type_init (InitFailed e) (final r)) (calls r)
      end
  end.

(** The public static members, as a caller reaches them. *)
Inductive operation : Type :=
| OpDuplicateStdinSocket
| OpEventSelectRead (socketHandle : IntPtr)
| OpEventSelectWrite (socketHandle : IntPtr).

Inductive op_result : Type :=
| ResultBool (b : bool)
| ResultHandle (h : SafeWaitHandle).

Definition op_body (o : operation) : M World op_result :=
  match o with
  | OpDuplicateStdinSocket => b ← DuplicateStdinSocket; mret (ResultBool b)
  | OpEventSelectRead h => w ← EventSelectRead h; mret (ResultHandle w)
  | OpEventSelectWrite h => w ← EventSelectWrite h; mret (ResultHandle w)
  end.

Definition public_call (o : operation) : M World op_result :=
  static_call (op_body o).

(** A caller invoking the operations one after the other, whatever the
    outcome of each: the calls made, the outcomes, the machine left. *)
Fixpoint execution (ops : list operation) (m : Machine World)
    : list os_call * list (Outcome op_result) * Machine World :=
  match ops with
  | [] => ([], [], m)
  | o :: rest =>
      let r := public_call o m in
      let '(cs, outs, m') := execution rest (final r) in
      (calls r ++ cs, outcome r :: outs, m')
  end.

(** For the statements about [DuplicateStdinSocket]: the machine it leaves
    when the system state is [w] after the last call and the system stored
    [data], and the calls it makes up to the duplication. *)
Definition after_duplicate (m : Machine World) (w : World) (data : list Byte.byte) : Machine World :=
  let a := fresh (dom (heap m)) in
  MkMachine w
    (<[a := store_bytes (replicate (Pos.to_nat sizeof_WSAPROTOCOL_INFO) Byte.x00) data]>
       (heap m))
    (MkSocketInformation (Some a) Listening)
    (type_init m).

Definition duplicate_prefix (m : Machine World) (oldHandle : HANDLE) (pid : Z)
    (data : list Byte.byte) (err : Z) : list os_call :=
  [GetStdHandle_call STD_INPUT_HANDLE oldHandle;
   GetCurrentProcessId_call pid;
   WSADuplicateSocket_call oldHandle pid (fresh (dom (heap m))) data err].

End Embedding.

Definition is_WSAStartup (c : os_call) : bool :=
  match c with WSAStartup_call _ _ => true | _ => false end.

Definition is_WSADuplicateSocket (c : os_call) : bool :=
  match c with WSADuplicateSocket_call _ _ _ _ _ => true | _ => false end.

Definition is_WSAGetLastError (c : os_call) : bool :=
  match c with WSAGetLastError_call _ => true | _ => false end.

Definition is_CloseHandle (c : os_call) : bool :=
  match c with CloseHandle_call _ _ => true | _ => false end.

Definition is_type_init_failure {A} (o : Outcome A) : bool :=
  match o with Thrown (TypeInitializationException _) => true | _ => false end.

(** ** A simulated system

    A small deterministic implementation of the two interfaces, with the
    values of the Windows SDK headers.  It instantiates the theorems below
    and is the system the code is run on where a concrete run is shown. *)

#[global] Instance sdk : WinSDK := {|
  SOCKET_ERROR := -1;
  WSAENOTSOCK := 10038;
  FD_READ := 1;
  FD_WRITE := 2;
  STD_INPUT_HANDLE := -10;
  MAKEWORD := fun a b => Z.lor (Z.land a 255) (Z.shiftl (Z.land b 255) 8);
  sizeof_WSAPROTOCOL_INFO := 628;
  Listening := 4
|}.

Inductive object_kind : Type := FileObject | SocketObject | EventObject.

#[global] Instance object_kind_eq_dec : EqDecision object_kind.
Proof. solve_decision. Defined.

(** [sim_objects]: the open handles and what each refers to;
    [sim_startup]: what [WSAStartup] answers in this system. *)
Record SimWorld := MkSimWorld {
  sim_objects : gmap Z object_kind;
  sim_stdin : HANDLE;
  sim_startup : Z;
  sim_started : bool;
  sim_last_error : Z;
  sim_selected : gmap Z (Z * Z)
}.

Definition sim_fail (code : Z) (w : SimWorld) : SimWorld :=
  MkSimWorld (sim_objects w) (sim_stdin w) (sim_startup w) (sim_started w)
             code (sim_selected w).

Definition sim_set_objects (o : gmap Z object_kind) (w : SimWorld) : SimWorld :=
  MkSimWorld o (sim_stdin w) (sim_startup w) (sim_started w)
             (sim_last_error w) (sim_selected w).

Definition WSANOTINITIALISED : Z := 10093.
Definition WSAEINVAL : Z := 10022.
Definition WSAVERNOTSUPPORTED : Z := 10092.
Definition ERROR_INVALID_HANDLE : Z := 6.

(** The duplication data of the simulated system: one structure's worth of
    bytes. *)
Definition sim_protocol_info : list Byte.byte :=
  replicate (Pos.to_nat 628) Byte.x2a.

#[global] Instance SimOS : Winsock SimWorld := {|
  os_WSAStartup := fun _ w =>
    (sim_startup w,
     MkSimWorld (sim_objects w) (sim_stdin w) (sim_startup w)
                (bool_decide (sim_startup w = 0)) (sim_last_error w)
                (sim_selected w));
  os_GetStdHandle := fun n w =>
    (if decide (n = -10) then sim_stdin w else -1, w);
  os_GetCurrentProcessId := fun w => (4242, w);
  os_WSADuplicateSocket := fun s _ w =>
    if sim_started w then
      match sim_objects w !! s with
      | Some SocketObject => ((0, sim_protocol_info), w)
      | _ => ((-1, []), sim_fail 10038 w)
      end
    else ((-1, []), sim_fail WSANOTINITIALISED w);
  os_WSAGetLastError := fun w => (sim_last_error w, w);
  os_CloseHandle := fun h w =>
    match sim_objects w !! h with
    | Some _ => (1, sim_set_objects (delete h (sim_objects w)) w)
    | None => (0, sim_fail ERROR_INVALID_HANDLE w)
    end;
  os_WSACreateEvent := fun w =>
    let ev := fresh ({[0]} ∪ dom (sim_objects w)) in
    (ev, sim_set_objects (<[ev := EventObject]> (sim_objects w)) w);
  os_WSAEventSelect := fun s ev mask w =>
    match sim_objects w !! s with
    | Some SocketObject =>
        match sim_objects w !! ev with
        | Some EventObject =>
            (0, MkSimWorld (sim_objects w) (sim_stdin w) (sim_startup w)
                  (sim_started w) (sim_last_error w)
                  (<[s := (ev, mask)]> (sim_selected w)))
        | _ => (-1, sim_fail WSAEINVAL w)
        end
    | _ => (-1, sim_fail 10038 w)
    end
|}.

(** A process whose standard input is the listening socket 7. *)
Definition sim_socket_world : SimWorld :=
  MkSimWorld {[ 7 := SocketObject ]} 7 0 true 0 ∅.

(** A process whose standard input is the file 3. *)
Definition sim_file_world : SimWorld :=
  MkSimWorld {[ 3 := FileObject ]} 3 0 true 0 ∅.

(** A process in which Winsock refuses the requested version. *)
Definition sim_refusing_world : SimWorld :=
  MkSimWorld {[ 7 := SocketObject ]} 7 WSAVERNOTSUPPORTED false 0 ∅.

(** A process that has not started Winsock yet, standard input a socket. *)
Definition sim_fresh_world : SimWorld :=
  MkSimWorld {[ 7 := SocketObject ]} 7 0 false 0 ∅.

Definition machine_of (w : SimWorld) (t : type_init_state) : Machine SimWorld :=
  MkMachine w ∅ (MkSocketInformation None 0) t.

Definition sim_event_alive (w : SimWorld) (h : WSAEVENT) : Prop :=
  sim_objects w !! h = Some EventObject.


(** * Properties *)

Lemma store_bytes_length (buf data : list Byte.byte) :
  length (store_bytes buf data) = length buf.
Proof.
  unfold store_bytes.
  rewrite length_take, length_app, length_drop. lia.
Qed.

Lemma narrow_int32_fits (v : Z) :
  - 2 ^ 31 <= v < 2 ^ 31 -> narrow_int32 v = v.
Proof.
  intros Hv. unfold narrow_int32.
  rewrite Z.mod_small by lia. lia.
Qed.

Section Properties.
Context {World : Type} `{SDK : WinSDK} `{OS : !Winsock World}.

Implicit Types m : Machine World.

(** ** How each function runs *)

Lemma DuplicateStdinSocket_run m :
  exists oldHandle pid data err w,
    (err <> SOCKET_ERROR /\
     exists r w', os_CloseHandle oldHandle w = (r, w') /\
       DuplicateStdinSocket m =
         MkRun (Returned true) (after_duplicate m w' data)
               (duplicate_prefix m oldHandle pid data err
                  ++ [CloseHandle_call oldHandle r]))
    \/
    (err = SOCKET_ERROR /\
     exists code w', os_WSAGetLastError w = (code, w') /\
       DuplicateStdinSocket m =
         MkRun (if decide (code = WSAENOTSOCK) then Returned false
                else Thrown (SocketException code))
               (after_duplicate m w' data)
               (duplicate_prefix m oldHandle pid data err
                  ++ [WSAGetLastError_call code])).
Proof.
  destruct (os_GetStdHandle STD_INPUT_HANDLE (os m)) as [oldHandle w1] eqn:E1.
  destruct (os_GetCurrentProcessId w1) as [pid w2] eqn:E2.
  destruct (os_WSADuplicateSocket oldHandle pid w2) as [[err data] w3] eqn:E3.
  exists oldHandle, pid, data, err, w3.
  unfold DuplicateStdinSocket, mbind, M_bind, mret, M_ret, gcnew_array,
    assign_ProtocolInformation, assign_Options, GetStdHandle,
    GetCurrentProcessId, WSADuplicateSocket, WSAGetLastError, CloseHandle,
    syscall, throw, after_duplicate, duplicate_prefix.
  cbn. rewrite E1. cbn. rewrite E2. cbn. rewrite E3. cbn.
  rewrite alter_insert_eq.
  destruct (decide (err = SOCKET_ERROR)) as [He|He].
  - right. split; [exact He|].
    destruct (os_WSAGetLastError w3) as [code w4] eqn:E4.
    exists code, w4. split; [reflexivity|].
    cbn. rewrite E4. cbn.
    destruct (decide (code = WSAENOTSOCK)); reflexivity.
  - left. split; [exact He|].
    destruct (os_CloseHandle oldHandle w3) as [r w4] eqn:E4.
    exists r, w4. split; [reflexivity|].
    cbn. rewrite E4. reflexivity.
Qed.

Lemma EventSelect_run m (sInt : IntPtr) (eventMask : Z) :
  (~ (- 2 ^ 31 <= sInt < 2 ^ 31) /\
   EventSelect sInt eventMask m = MkRun (Thrown OverflowException) m [])
  \/
  (- 2 ^ 31 <= sInt < 2 ^ 31 /\
   exists ev w1 err w2,
     os_WSACreateEvent (os m) = (ev, w1) /\
     os_WSAEventSelect (narrow_int32 sInt) ev eventMask w1 = (err, w2) /\
     EventSelect sInt eventMask m =
       MkRun (if decide (err = SOCKET_ERROR) then Thrown (SocketException err)
              else Returned (MkSafeWaitHandle ev true))
             (set_os w2 m)
             [WSACreateEvent_call ev;
              WSAEventSelect_call (narrow_int32 sInt) ev eventMask err]).
Proof.
  destruct (os_WSACreateEvent (os m)) as [ev w1] eqn:E1.
  destruct (os_WSAEventSelect (narrow_int32 sInt) ev eventMask w1)
    as [err w2] eqn:E2.
  unfold EventSelect, IntPtr_ToInt32, mbind, M_bind, mret, M_ret, throw,
    WSACreateEvent, WSAEventSelect, syscall.
  destruct (decide (- 2 ^ 31 <= sInt < 2 ^ 31)) as [Hfit|Hfit].
  - right. split; [exact Hfit|].
    exists ev, w1, err, w2.
    split; [reflexivity|]. split; [exact E2|].
    cbn. rewrite E1. cbn. rewrite E2. cbn.
    destruct (decide (err = SOCKET_ERROR)); reflexivity.
  - left. split; [exact Hfit|]. reflexivity.
Qed.

Lemma SocketSupport_run m :
  exists err w,
    os_WSAStartup (MAKEWORD 2 0) (os m) = (err, w) /\
    SocketSupport m =
      MkRun (if decide (err = SOCKET_ERROR) then Thrown (SocketException err)
             else Returned tt)
            (set_os w m) [WSAStartup_call (MAKEWORD 2 0) err].
Proof.
  destruct (os_WSAStartup (MAKEWORD 2 0) (os m)) as [err w] eqn:E.
  exists err, w. split; [reflexivity|].
  unfold SocketSupport, WSAStartup, syscall, mbind, M_bind, mret, M_ret, throw.
  cbn. rewrite E. cbn.
  destruct (decide (err = SOCKET_ERROR)); reflexivity.
Qed.

(** ** DuplicateStdinSocket *)

(** C1. When the duplication call answers [SOCKET_ERROR], the last call the
    operation makes is [WSAGetLastError]; if the code it reports is
    [WSAENOTSOCK] the operation returns [false] and throws nothing, and for
    any other code it throws a [SocketException] carrying exactly that code
    and so returns no boolean. *)
Theorem DuplicateStdinSocket_error_policy m (s : SOCKET) (pid : Z)
    (lp : array_ref) (data : list Byte.byte) :
  In (WSADuplicateSocket_call s pid lp data SOCKET_ERROR)
     (calls (DuplicateStdinSocket m)) ->
  exists code,
    last (calls (DuplicateStdinSocket m)) = Some (WSAGetLastError_call code) /\
    (code = WSAENOTSOCK -> outcome (DuplicateStdinSocket m) = Returned false) /\
    (code <> WSAENOTSOCK ->
       outcome (DuplicateStdinSocket m) = Thrown (SocketException code)).
Proof.
  destruct (DuplicateStdinSocket_run m)
    as (h & p & d & err & w & [(Hok & r & w' & _ & ->) | (_ & code & w' & _ & ->)]).
  - cbn. intros Hin. exfalso.
    destruct Hin as [Hin|[Hin|[Hin|[Hin|[]]]]]; try discriminate Hin.
    injection Hin as _ _ _ _ Herr. contradiction.
  - intros _. exists code. cbn. split; [reflexivity|].
    destruct (decide (code = WSAENOTSOCK)); split; intros; congruence.
Qed.

(** C4. The operation issues [CloseHandle] on the handle [GetStdHandle]
    gave it exactly when it returns [true]; when it returns [false] or
    throws, it issues no [CloseHandle] at all, and the only call that
    received the handle is the duplication call. *)
Theorem DuplicateStdinSocket_closes_iff_true m :
  exists oldHandle,
    In (GetStdHandle_call STD_INPUT_HANDLE oldHandle)
       (calls (DuplicateStdinSocket m)) /\
    ((exists ret, In (CloseHandle_call oldHandle ret)
                     (calls (DuplicateStdinSocket m)))
     <-> outcome (DuplicateStdinSocket m) = Returned true) /\
    (outcome (DuplicateStdinSocket m) <> Returned true ->
     filter is_CloseHandle (calls (DuplicateStdinSocket m)) = []) /\
    (outcome (DuplicateStdinSocket m) = Returned true ->
     exists ret, filter is_CloseHandle (calls (DuplicateStdinSocket m))
                 = [CloseHandle_call oldHandle ret]).
Proof.
  destruct (DuplicateStdinSocket_run m)
    as (h & p & d & err & w & [(_ & r & w' & _ & ->) | (_ & code & w' & _ & ->)]);
    exists h; cbn.
  - split; [auto|]. split; [|split].
    + split; [reflexivity|]. intros _. exists r. auto 6.
    + intros Hne. contradiction.
    + intros _. exists r. reflexivity.
  - split; [auto|].
    assert (Hout : (if decide (code = WSAENOTSOCK) then Returned false
                    else Thrown (SocketException code)) <> Returned true)
      by (destruct (decide (code = WSAENOTSOCK)); discriminate).
    split; [|split].
    + split; [|intros Ht; contradiction].
      intros [ret Hin]. exfalso.
      destruct Hin as [Hin|[Hin|[Hin|[Hin|[]]]]]; discriminate Hin.
    + reflexivity.
    + intros Ht. contradiction.
Qed.

Lemma store_bytes_zeros (n : nat) (data : list Byte.byte) :
  (length data <= n)%nat ->
  store_bytes (replicate n Byte.x00) data
  = data ++ replicate (n - length data) Byte.x00.
Proof.
  intros Hle. unfold store_bytes.
  rewrite length_replicate, drop_replicate.
  apply take_ge. rewrite length_app, length_replicate. lia.
Qed.

(** C5. When the duplication call answers success (0), the operation
    returns [true]; the array the system was given to fill is the array the
    record refers to, and it holds the bytes the system stored (followed by
    the zero bytes of the allocation where the system stored fewer than one
    structure); the last call of the operation closes the standard-input
    handle. *)
Theorem DuplicateStdinSocket_success m (s : SOCKET) (pid : Z)
    (lp : array_ref) (data : list Byte.byte) :
  SOCKET_ERROR <> 0 ->
  (length data <= Pos.to_nat sizeof_WSAPROTOCOL_INFO)%nat ->
  In (WSADuplicateSocket_call s pid lp data 0)
     (calls (DuplicateStdinSocket m)) ->
  outcome (DuplicateStdinSocket m) = Returned true /\
  ProtocolInformation (out_result (final (DuplicateStdinSocket m))) = Some lp /\
  heap (final (DuplicateStdinSocket m)) !! lp
    = Some (data ++ replicate (Pos.to_nat sizeof_WSAPROTOCOL_INFO - length data)
                              Byte.x00) /\
  (length data = Pos.to_nat sizeof_WSAPROTOCOL_INFO ->
   heap (final (DuplicateStdinSocket m)) !! lp = Some data) /\
  In (GetStdHandle_call STD_INPUT_HANDLE s) (calls (DuplicateStdinSocket m)) /\
  exists ret,
    last (calls (DuplicateStdinSocket m)) = Some (CloseHandle_call s ret).
Proof.
  intros Hne Hlen.
  destruct (DuplicateStdinSocket_run m)
    as (h & p & d & err & w & [(_ & r & w' & _ & ->) | (He & code & w' & _ & ->)]);
    cbn; intros Hin.
  - destruct Hin as [Hin|[Hin|[Hin|[Hin|[]]]]]; try discriminate Hin.
    injection Hin as -> -> <- -> ->.
    split; [reflexivity|]. split; [reflexivity|].
    rewrite lookup_insert_eq, store_bytes_zeros by exact Hlen.
    split; [reflexivity|]. split.
    + intros Heq. rewrite Heq, Nat.sub_diag. cbn. now rewrite app_nil_r.
    + split; [auto|]. exists r. reflexivity.
  - exfalso.
    destruct Hin as [Hin|[Hin|[Hin|[Hin|[]]]]]; try discriminate Hin.
    injection Hin as _ _ _ _ Herr. congruence.
Qed.

(** C6. Whatever the outcome, the record refers to an array that did not
    exist before the call, of [sizeof(WSAPROTOCOL_INFO)] bytes, and its
    options are [Listening]; that array is the one passed to the duplication
    call, so it was allocated and assigned before that call; it holds the
    zero bytes of the allocation overwritten by whatever the system stored;
    no other array changed.  This is in particular the state of the record
    when the operation returns [false]. *)
Theorem DuplicateStdinSocket_record m :
  exists a,
    heap m !! a = None /\
    out_result (final (DuplicateStdinSocket m))
      = MkSocketInformation (Some a) Listening /\
    (exists blob,
       heap (final (DuplicateStdinSocket m)) !! a = Some blob /\
       length blob = Pos.to_nat sizeof_WSAPROTOCOL_INFO) /\
    (forall b, b <> a ->
       heap (final (DuplicateStdinSocket m)) !! b = heap m !! b) /\
    (exists s pid data err,
       filter is_WSADuplicateSocket (calls (DuplicateStdinSocket m))
         = [WSADuplicateSocket_call s pid a data err] /\
       heap (final (DuplicateStdinSocket m)) !! a
         = Some (store_bytes
                   (replicate (Pos.to_nat sizeof_WSAPROTOCOL_INFO) Byte.x00)
                   data)).
Proof.
  exists (fresh (dom (heap m))).
  split; [apply not_elem_of_dom, is_fresh|].
  destruct (DuplicateStdinSocket_run m)
    as (h & p & d & err & w & [(_ & r & w' & _ & ->) | (_ & code & w' & _ & ->)]);
    cbn.
  all: split; [reflexivity|]; split; [|split].
  all: try (eexists; split; [apply lookup_insert_eq|];
            rewrite store_bytes_length; apply length_replicate).
  all: try (intros b Hb; apply lookup_insert_ne; congruence).
  all: exists h, p, d, err; split; [reflexivity|apply lookup_insert_eq].
Qed.

(** ** EventSelectRead and EventSelectWrite *)

(** C9. The socket the operation passes to the system is the given handle
    narrowed to a 32-bit signed integer.  A handle that fits is passed as it
    is; for one that does not fit the conversion throws before any system
    call is made, so nothing is done on the caller's handle. *)
Theorem EventSelect_socket_is_narrowed_handle m
    (f : IntPtr -> M World SafeWaitHandle) (sInt : IntPtr) :
  f = EventSelectRead \/ f = EventSelectWrite ->
  (forall s ev mask ret,
     In (WSAEventSelect_call s ev mask ret) (calls (f sInt m)) ->
     s = narrow_int32 sInt) /\
  (- 2 ^ 31 <= sInt < 2 ^ 31 ->
   narrow_int32 sInt = sInt /\
   exists ev mask ret,
     In (WSAEventSelect_call (narrow_int32 sInt) ev mask ret)
        (calls (f sInt m))) /\
  (~ (- 2 ^ 31 <= sInt < 2 ^ 31) ->
   narrow_int32 sInt <> sInt /\
   outcome (f sInt m) = Thrown OverflowException /\
   calls (f sInt m) = [] /\
   final (f sInt m) = m).
Proof.
  intros Hf.
  assert (exists mask, f sInt m = EventSelect sInt mask m) as [mask ->]
    by (destruct Hf as [-> | ->]; eexists; reflexivity).
  destruct (EventSelect_run m sInt mask)
    as [(Hbig & ->) | (Hfit & ev & w1 & err & w2 & _ & _ & ->)]; cbn.
  - split; [intros ? ? ? ? []|]. split; [intros; contradiction|].
    intros _. split; [|auto].
    unfold narrow_int32. intros Heq.
    pose proof (Z.mod_pos_bound (sInt + 2 ^ 31) (2 ^ 32) ltac:(lia)). lia.
  - split; [|split].
    + intros s ev' mask' ret [Hin|[Hin|[]]]; [discriminate Hin|].
      now injection Hin as <- _ _ _.
    + intros _. split; [now apply narrow_int32_fits|].
      exists ev, mask, err. auto.
    + intros; contradiction.
Qed.

(** C10. When the association call answers [SOCKET_ERROR], the operation
    throws; the calls it made are the creation of the event and the failed
    association, nothing else: the event created in the call is not closed,
    and no handle to it is returned. *)
Theorem EventSelect_failure_leaves_event m
    (f : IntPtr -> M World SafeWaitHandle) (sInt : IntPtr)
    (s : SOCKET) (ev : WSAEVENT) (mask : Z) :
  f = EventSelectRead \/ f = EventSelectWrite ->
  In (WSAEventSelect_call s ev mask SOCKET_ERROR) (calls (f sInt m)) ->
  calls (f sInt m)
    = [WSACreateEvent_call ev; WSAEventSelect_call s ev mask SOCKET_ERROR] /\
  outcome (f sInt m) = Thrown (SocketException SOCKET_ERROR) /\
  filter is_CloseHandle (calls (f sInt m)) = [].
Proof.
  intros Hf.
  assert (exists k, f sInt m = EventSelect sInt k m) as [k ->]
    by (destruct Hf as [-> | ->]; eexists; reflexivity).
  destruct (EventSelect_run m sInt k)
    as [(Hbig & ->) | (Hfit & ev' & w1 & err & w2 & _ & _ & ->)]; cbn.
  - intros [].
  - intros [Hin|[Hin|[]]]; [discriminate Hin|].
    injection Hin as -> -> -> ->.
    split; [reflexivity|]. split; [|reflexivity].
    rewrite decide_True by reflexivity. reflexivity.
Qed.

Lemma lor_disjoint_neq (a b : Z) :
  Z.land a b = 0 -> b <> 0 -> a <> Z.lor a b.
Proof.
  intros Hand Hb Heq.
  pose proof (Z.add_lor_land a b) as Hsum. lia.
Qed.

Section EventObjects.
(** What the system guarantees about event objects: [event_alive w h] says
    that [h] is a handle to an event object in the system state [w].  An
    event just created has a handle that referred to no event before;
    creating an event and associating one with a socket close no event; an
    association succeeds only on an event. *)
Variable event_alive : World -> WSAEVENT -> Prop.
Hypothesis create_fresh : forall w ev w',
  os_WSACreateEvent w = (ev, w') -> ~ event_alive w ev.
Hypothesis create_keeps : forall w ev w' h,
  os_WSACreateEvent w = (ev, w') -> event_alive w h -> event_alive w' h.
Hypothesis select_on_event : forall s ev mask w r w',
  os_WSAEventSelect s ev mask w = (r, w') -> r <> SOCKET_ERROR ->
  event_alive w ev.
Hypothesis select_keeps : forall s ev mask w r w' h,
  os_WSAEventSelect s ev mask w = (r, w') -> event_alive w h ->
  event_alive w' h.

(** C7. [EventSelectRead] creates one event and associates it with the
    socket under the mask [FD_READ], [EventSelectWrite] does the same under
    [FD_WRITE]; with [FD_READ] and [FD_WRITE] distinct bits, the mask of a
    call is never their union nor the other one.  When a read registration
    is followed by a write registration on the same socket and the system
    accepts both associations, neither call throws, each returns the handle
    of the event it created itself, and the two handles are distinct and
    both refer to events at the end. *)
Theorem EventSelect_read_then_write m (sInt : IntPtr) :
  Z.land FD_READ FD_WRITE = 0 -> FD_READ <> 0 -> FD_WRITE <> 0 ->
  - 2 ^ 31 <= sInt < 2 ^ 31 ->
  exists ev1 ret1 ev2 ret2,
    calls (EventSelectRead sInt m)
      = [WSACreateEvent_call ev1; WSAEventSelect_call sInt ev1 FD_READ ret1] /\
    calls (EventSelectWrite sInt (final (EventSelectRead sInt m)))
      = [WSACreateEvent_call ev2; WSAEventSelect_call sInt ev2 FD_WRITE ret2] /\
    FD_READ <> Z.lor FD_READ FD_WRITE /\
    FD_WRITE <> Z.lor FD_READ FD_WRITE /\
    FD_READ <> FD_WRITE /\
    (ret1 <> SOCKET_ERROR -> ret2 <> SOCKET_ERROR ->
     outcome (EventSelectRead sInt m) = Returned (MkSafeWaitHandle ev1 true) /\
     outcome (EventSelectWrite sInt (final (EventSelectRead sInt m)))
       = Returned (MkSafeWaitHandle ev2 true) /\
     ev1 <> ev2 /\
     event_alive
       (os (final (EventSelectWrite sInt (final (EventSelectRead sInt m))))) ev1 /\
     event_alive
       (os (final (EventSelectWrite sInt (final (EventSelectRead sInt m))))) ev2).
Proof.
  intros Hand Hr Hw Hfit.
  unfold EventSelectRead, EventSelectWrite.
  destruct (EventSelect_run m sInt FD_READ)
    as [(Hbig & _) | (_ & ev1 & w1 & ret1 & w2 & Hc1 & Hs1 & ->)];
    [contradiction|].
  cbn [final calls outcome].
  destruct (EventSelect_run (set_os w2 m) sInt FD_WRITE)
    as [(Hbig & _) | (_ & ev2 & w3 & ret2 & w4 & Hc2 & Hs2 & ->)];
    [contradiction|].
  cbn [final calls outcome set_os os] in *.
  rewrite narrow_int32_fits in * by exact Hfit.
  exists ev1, ret1, ev2, ret2.
  split; [reflexivity|]. split; [reflexivity|].
  split; [now apply lor_disjoint_neq|].
  split; [rewrite Z.lor_comm; apply lor_disjoint_neq;
          [now rewrite Z.land_comm|assumption]|].
  split.
  { intros Heq. rewrite Heq, Z.land_diag in Hand. contradiction. }
  intros Hok1 Hok2.
  rewrite !decide_False by assumption.
  split; [reflexivity|]. split; [reflexivity|].
  assert (Ha1 : event_alive w2 ev1) by eauto.
  split; [|split].
  - intros ->. eapply create_fresh; eauto.
  - eauto.
  - eauto.
Qed.

End EventObjects.

(** ** What the thrown exceptions carry *)

(** Whatever [EventSelect] throws as a [SocketException] carries the value
    [SOCKET_ERROR] itself, and the function never asks the system for the
    error code. *)
Lemma EventSelect_throws_SOCKET_ERROR m (sInt : IntPtr) (eventMask c : Z) :
  outcome (EventSelect sInt eventMask m) = Thrown (SocketException c) ->
  c = SOCKET_ERROR /\
  filter is_WSAGetLastError (calls (EventSelect sInt eventMask m)) = [].
Proof.
  destruct (EventSelect_run m sInt eventMask)
    as [(_ & ->) | (_ & ev & w1 & err & w2 & _ & _ & ->)]; cbn.
  - discriminate.
  - destruct (decide (err = SOCKET_ERROR)); [|discriminate].
    intros [= <-]. auto.
Qed.

(** The static constructor throws exactly when [WSAStartup] answers
    [SOCKET_ERROR]. *)
Lemma SocketSupport_throws_iff m :
  (exists e, outcome (SocketSupport m) = Thrown e)
  <-> (os_WSAStartup (MAKEWORD 2 0) (os m)).1 = SOCKET_ERROR.
Proof.
  destruct (SocketSupport_run m) as (err & w & -> & ->). cbn.
  destruct (decide (err = SOCKET_ERROR)) as [He|He]; split.
  - intros _. exact He.
  - intros _. eauto.
  - intros [e Habs]. discriminate Habs.
  - intros Habs. contradiction.
Qed.

(** ** Type initialization *)

(** The bodies of the three operations leave the initialization state
    alone, never call [WSAStartup], and throw no
    [TypeInitializationException]. *)
Lemma op_body_inv (o : operation) m :
  type_init (final (op_body o m)) = type_init m /\
  filter is_WSAStartup (calls (op_body o m)) = [] /\
  is_type_init_failure (outcome (op_body o m)) = false.
Proof.
  destruct o as [|h|h]; unfold op_body, mbind, M_bind, mret, M_ret.
  - destruct (DuplicateStdinSocket_run m)
      as (h & p & d & err & w & [(_ & r & w' & _ & ->) | (_ & code & w' & _ & ->)]);
      cbn; [auto|].
    destruct (decide (code = WSAENOTSOCK)); cbn; auto.
  - unfold EventSelectRead.
    destruct (EventSelect_run m h FD_READ)
      as [(_ & ->) | (_ & ev & w1 & err & w2 & _ & _ & ->)]; cbn; [auto|].
    destruct (decide (err = SOCKET_ERROR)); cbn; auto.
  - unfold EventSelectWrite.
    destruct (EventSelect_run m h FD_WRITE)
      as [(_ & ->) | (_ & ev & w1 & err & w2 & _ & _ & ->)]; cbn; [auto|].
    destruct (decide (err = SOCKET_ERROR)); cbn; auto.
Qed.

Lemma execution_cons (o : operation) (ops : list operation) m :
  execution (o :: ops) m
  = (calls (public_call o m) ++ (execution ops (final (public_call o m))).1.1,
     outcome (public_call o m) :: (execution ops (final (public_call o m))).1.2,
     (execution ops (final (public_call o m))).2).
Proof.
  cbn [execution].
  destruct (execution ops (final (public_call o m))) as [[cs outs] m'].
  reflexivity.
Qed.

Lemma execution_initialized (ops : list operation) : forall m,
  type_init m = Initialized ->
  filter is_WSAStartup (execution ops m).1.1 = [] /\
  Forall (fun o => is_type_init_failure o = false) (execution ops m).1.2 /\
  type_init (execution ops m).2 = Initialized.
Proof.
  induction ops as [|o ops IH]; intros m Hinit.
  - cbn. auto.
  - rewrite execution_cons. cbn [fst snd].
    assert (Hcall : public_call o m = op_body o m)
      by (unfold public_call, static_call; now rewrite Hinit).
    destruct (op_body_inv o m) as (Hty & Hno & Hexn).
    rewrite Hcall.
    destruct (IH (final (op_body o m))) as (IH1 & IH2 & IH3); [congruence|].
    rewrite filter_app, Hno, IH1. auto.
Qed.

Lemma execution_init_failed (ops : list operation) : forall m e,
  type_init m = InitFailed e ->
  (execution ops m).1.1 = [].
Proof.
  induction ops as [|o ops IH]; intros m e Hinit; [reflexivity|].
  rewrite execution_cons. cbn [fst snd].
  unfold public_call at 1 2, static_call. rewrite Hinit. cbn.
  eapply IH. exact Hinit.
Qed.

(** The [WSAStartup] calls of a sequence of invocations.  From a process in
    which the class is not yet initialized, every non-empty sequence of
    invocations starts with the [WSAStartup] call of the static constructor,
    requesting [MAKEWORD(2,0)], and makes no other [WSAStartup] call.  When
    the constructor does not throw, the runtime counts the class as
    initialized, and no further sequence of invocations calls [WSAStartup]
    again or fails with a type-initialization error.  This says nothing on
    whether that startup succeeded: the constructor returns on every answer
    but [SOCKET_ERROR] ([SocketSupport_throws_iff]). *)
Theorem initialization_exactly_once (ops : list operation) m :
  type_init m = NotInitialized ->
  ops <> [] ->
  exists ret rest,
    (execution ops m).1.1 = WSAStartup_call (MAKEWORD 2 0) ret :: rest /\
    filter is_WSAStartup rest = [] /\
    (ret <> SOCKET_ERROR ->
     type_init (execution ops m).2 = Initialized /\
     Forall (fun o => is_type_init_failure o = false) (execution ops m).1.2 /\
     forall more,
       filter is_WSAStartup (execution more (execution ops m).2).1.1 = [] /\
       Forall (fun o => is_type_init_failure o = false)
              (execution more (execution ops m).2).1.2).
Proof.
  intros Hinit Hne.
  destruct ops as [|o ops]; [contradiction|].
  rewrite execution_cons. cbn [fst snd].
  unfold public_call at 1 2 3 4 5 6 7, static_call. rewrite Hinit.
  destruct (SocketSupport_run m) as (err & w & _ & ->).
  exists err.
  destruct (decide (err = SOCKET_ERROR)) as [He|He]; cbn [outcome final calls].
  - exists []. split.
    + erewrite execution_init_failed by reflexivity. reflexivity.
    + split; [reflexivity|]. intros; contradiction.
  - exists (calls (op_body o (set_type_init Initialized (set_os w m)))
            ++ (execution ops
                  (final (op_body o (set_type_init Initialized (set_os w m))))).1.1).
    split; [reflexivity|].
    destruct (op_body_inv o (set_type_init Initialized (set_os w m)))
      as (Hty & Hno & Hexn).
    destruct (execution_initialized ops
                (final (op_body o (set_type_init Initialized (set_os w m)))))
      as (H1 & H2 & H3); [rewrite Hty; reflexivity|].
    split; [rewrite filter_app, Hno, H1; reflexivity|].
    intros _. split; [exact H3|]. split; [constructor; assumption|].
    intros more.
    destruct (execution_initialized more _ H3) as (M1 & M2 & _). auto.
Qed.

End Properties.

(** ** The simulated system: instances and concrete runs *)

Lemma sim_create_eq (w : SimWorld) :
  os_WSACreateEvent w
  = (fresh ({[0]} ∪ dom (sim_objects w)),
     sim_set_objects
       (<[fresh ({[0]} ∪ dom (sim_objects w)) := EventObject]> (sim_objects w)) w).
Proof. reflexivity. Qed.

Lemma sim_create_fresh (w : SimWorld) (ev : WSAEVENT) (w' : SimWorld) :
  os_WSACreateEvent w = (ev, w') -> ~ sim_event_alive w ev.
Proof.
  rewrite sim_create_eq. intros [= <- _]. unfold sim_event_alive.
  pose proof (is_fresh ({[0]} ∪ dom (sim_objects w))) as Hfresh.
  rewrite not_elem_of_union, not_elem_of_dom in Hfresh.
  destruct Hfresh as [_ ->]. discriminate.
Qed.

Lemma sim_create_keeps (w : SimWorld) (ev : WSAEVENT) (w' : SimWorld)
    (h : WSAEVENT) :
  os_WSACreateEvent w = (ev, w') -> sim_event_alive w h -> sim_event_alive w' h.
Proof.
  intros Hc Hh. pose proof (sim_create_fresh w ev w' Hc) as Hfresh.
  rewrite sim_create_eq in Hc. injection Hc as <- <-.
  unfold sim_event_alive in *. unfold sim_set_objects. cbn [sim_objects].
  rewrite lookup_insert_ne; [exact Hh|].
  intros Heq. rewrite Heq in Hfresh. contradiction.
Qed.

Lemma sim_select_on_event (s : SOCKET) (ev : WSAEVENT) (mask : Z)
    (w : SimWorld) (r : Z) (w' : SimWorld) :
  os_WSAEventSelect s ev mask w = (r, w') -> r <> SOCKET_ERROR ->
  sim_event_alive w ev.
Proof.
  cbn. unfold sim_event_alive.
  destruct (sim_objects w !! s) as [[]|]; try (intros [= <- _]; contradiction).
  destruct (sim_objects w !! ev) as [[]|]; try (intros [= <- _]; contradiction).
  reflexivity.
Qed.

Lemma sim_select_keeps (s : SOCKET) (ev : WSAEVENT) (mask : Z)
    (w : SimWorld) (r : Z) (w' : SimWorld) (h : WSAEVENT) :
  os_WSAEventSelect s ev mask w = (r, w') -> sim_event_alive w h ->
  sim_event_alive w' h.
Proof.
  cbn. unfold sim_event_alive.
  destruct (sim_objects w !! s) as [[]|]; try (intros [= _ <-]; trivial).
  destruct (sim_objects w !! ev) as [[]|]; intros [= _ <-]; trivial.
Qed.

(** Run of C1: standard input is a file, the duplication fails with
    [WSAENOTSOCK], the operation returns [false]. *)
Lemma DuplicateStdinSocket_error_policy_witness :
  In (WSADuplicateSocket_call 3 4242 1%positive [] SOCKET_ERROR)
     (calls (DuplicateStdinSocket (machine_of sim_file_world Initialized))) /\
  exists code,
    last (calls (DuplicateStdinSocket (machine_of sim_file_world Initialized)))
      = Some (WSAGetLastError_call code) /\
    (code = WSAENOTSOCK ->
     outcome (DuplicateStdinSocket (machine_of sim_file_world Initialized))
       = Returned false) /\
    (code <> WSAENOTSOCK ->
     outcome (DuplicateStdinSocket (machine_of sim_file_world Initialized))
       = Thrown (SocketException code)).
Proof.
  assert (Hin : In (WSADuplicateSocket_call 3 4242 1%positive [] SOCKET_ERROR)
                   (calls (DuplicateStdinSocket
                             (machine_of sim_file_world Initialized))))
    by (vm_compute; do 2 right; left; reflexivity).
  split; [exact Hin|].
  exact (DuplicateStdinSocket_error_policy _ _ _ _ _ Hin).
Defined.

(** On the same run the file handle 3 is still open afterwards; when
    standard input is the socket 7 the handle is gone after the call. *)
Example DuplicateStdinSocket_file_stays_open :
  filter is_CloseHandle
    (calls (DuplicateStdinSocket (machine_of sim_file_world Initialized))) = [] /\
  sim_objects
    (os (final (DuplicateStdinSocket (machine_of sim_file_world Initialized))))
    !! 3 = Some FileObject.
Proof. vm_compute. split; reflexivity. Qed.

Example DuplicateStdinSocket_socket_is_closed :
  filter is_CloseHandle
    (calls (DuplicateStdinSocket (machine_of sim_socket_world Initialized)))
    = [CloseHandle_call 7 1] /\
  sim_objects
    (os (final (DuplicateStdinSocket (machine_of sim_socket_world Initialized))))
    !! 7 = None.
Proof. vm_compute. split; reflexivity. Qed.

(** The other branch of C1: Winsock was never started, the duplication fails
    with [WSANOTINITIALISED], and that code is what the exception carries. *)
Example DuplicateStdinSocket_other_error :
  outcome (DuplicateStdinSocket (machine_of sim_fresh_world Initialized))
  = Thrown (SocketException WSANOTINITIALISED).
Proof. vm_compute. reflexivity. Qed.

(** Run of C5: standard input is the socket 7. *)
Lemma DuplicateStdinSocket_success_witness :
  outcome (DuplicateStdinSocket (machine_of sim_socket_world Initialized))
    = Returned true /\
  heap (final (DuplicateStdinSocket (machine_of sim_socket_world Initialized)))
    !! 1%positive = Some sim_protocol_info /\
  exists ret,
    last (calls (DuplicateStdinSocket (machine_of sim_socket_world Initialized)))
    = Some (CloseHandle_call 7 ret).
Proof.
  assert (Hne : SOCKET_ERROR <> 0) by (vm_compute; discriminate).
  assert (Hlen : (length sim_protocol_info
                  <= Pos.to_nat sizeof_WSAPROTOCOL_INFO)%nat)
    by (vm_compute; lia).
  assert (Hin : In (WSADuplicateSocket_call 7 4242 1%positive
                      sim_protocol_info 0)
                   (calls (DuplicateStdinSocket
                             (machine_of sim_socket_world Initialized))))
    by (vm_compute; do 2 right; left; reflexivity).
  destruct (DuplicateStdinSocket_success _ _ _ _ _ Hne Hlen Hin)
    as (Hout & _ & _ & Hblob & _ & Hlast).
  split; [exact Hout|]. split; [|exact Hlast].
  apply Hblob. vm_compute. reflexivity.
Defined.

(** Run of C9: the handle 7 fits and is what the system receives. *)
Lemma EventSelect_socket_is_narrowed_handle_witness :
  narrow_int32 7 = 7 /\
  exists ev mask ret,
    In (WSAEventSelect_call (narrow_int32 7) ev mask ret)
       (calls (EventSelectRead 7 (machine_of sim_socket_world Initialized))).
Proof.
  destruct (EventSelect_socket_is_narrowed_handle
              (machine_of sim_socket_world Initialized)
              EventSelectRead 7 (or_introl eq_refl)) as (_ & Hfit & _).
  apply Hfit. lia.
Defined.

(** A handle of a 64-bit process that does not fit: no call is made. *)
Example EventSelect_overflow :
  EventSelectWrite (2 ^ 32 + 7) (machine_of sim_socket_world Initialized)
  = MkRun (Thrown OverflowException)
          (machine_of sim_socket_world Initialized) [].
Proof. reflexivity. Qed.

(** Run of C10: registering on the file handle 3 fails; the event 4 the
    call created stays open in the system. *)
Lemma EventSelect_failure_leaves_event_witness :
  calls (EventSelectRead 3 (machine_of sim_file_world Initialized))
    = [WSACreateEvent_call 4; WSAEventSelect_call 3 4 FD_READ SOCKET_ERROR] /\
  outcome (EventSelectRead 3 (machine_of sim_file_world Initialized))
    = Thrown (SocketException SOCKET_ERROR) /\
  filter is_CloseHandle
    (calls (EventSelectRead 3 (machine_of sim_file_world Initialized))) = [].
Proof.
  apply (EventSelect_failure_leaves_event
           (machine_of sim_file_world Initialized) EventSelectRead 3).
  - left. reflexivity.
  - vm_compute. right. left. reflexivity.
Defined.

Example EventSelect_failure_event_still_open :
  sim_event_alive
    (os (final (EventSelectRead 3 (machine_of sim_file_world Initialized)))) 4.
Proof. vm_compute. reflexivity. Qed.

(** Run of C7: a read and then a write registration on the socket 7. *)
Lemma EventSelect_read_then_write_witness :
  exists ev1 ret1 ev2 ret2,
    calls (EventSelectRead 7 (machine_of sim_socket_world Initialized))
      = [WSACreateEvent_call ev1; WSAEventSelect_call 7 ev1 FD_READ ret1] /\
    calls (EventSelectWrite 7
             (final (EventSelectRead 7 (machine_of sim_socket_world Initialized))))
      = [WSACreateEvent_call ev2; WSAEventSelect_call 7 ev2 FD_WRITE ret2] /\
    FD_READ <> Z.lor FD_READ FD_WRITE /\
    FD_WRITE <> Z.lor FD_READ FD_WRITE /\
    FD_READ <> FD_WRITE /\
    (ret1 <> SOCKET_ERROR -> ret2 <> SOCKET_ERROR ->
     outcome (EventSelectRead 7 (machine_of sim_socket_world Initialized))
       = Returned (MkSafeWaitHandle ev1 true) /\
     outcome (EventSelectWrite 7
                (final (EventSelectRead 7
                          (machine_of sim_socket_world Initialized))))
       = Returned (MkSafeWaitHandle ev2 true) /\
     ev1 <> ev2 /\
     sim_event_alive
       (os (final (EventSelectWrite 7
                     (final (EventSelectRead 7
                               (machine_of sim_socket_world Initialized))))))
       ev1 /\
     sim_event_alive
       (os (final (EventSelectWrite 7
                     (final (EventSelectRead 7
                               (machine_of sim_socket_world Initialized))))))
       ev2).
Proof.
  apply (EventSelect_read_then_write sim_event_alive
           sim_create_fresh sim_create_keeps sim_select_on_event
           sim_select_keeps (machine_of sim_socket_world Initialized) 7).
  - reflexivity.
  - vm_compute. discriminate.
  - vm_compute. discriminate.
  - lia.
Defined.

(** On the simulated system both registrations are accepted: the handles
    are 8 and 9. *)
Example EventSelect_read_then_write_run :
  outcome (EventSelectRead 7 (machine_of sim_socket_world Initialized))
    = Returned (MkSafeWaitHandle 8 true) /\
  outcome (EventSelectWrite 7
             (final (EventSelectRead 7 (machine_of sim_socket_world Initialized))))
    = Returned (MkSafeWaitHandle 9 true).
Proof. vm_compute. split; reflexivity. Qed.

(** Three invocations in a process that has not used the class yet. *)
Lemma initialization_exactly_once_witness :
  exists ret rest,
    (execution [OpDuplicateStdinSocket; OpEventSelectRead 7; OpEventSelectWrite 7]
               (machine_of sim_fresh_world NotInitialized)).1.1
      = WSAStartup_call (MAKEWORD 2 0) ret :: rest /\
    filter is_WSAStartup rest = [] /\
    (ret <> SOCKET_ERROR ->
     type_init
       (execution [OpDuplicateStdinSocket; OpEventSelectRead 7; OpEventSelectWrite 7]
                  (machine_of sim_fresh_world NotInitialized)).2 = Initialized /\
     Forall (fun o => is_type_init_failure o = false)
       (execution [OpDuplicateStdinSocket; OpEventSelectRead 7; OpEventSelectWrite 7]
                  (machine_of sim_fresh_world NotInitialized)).1.2 /\
     forall more,
       filter is_WSAStartup
         (execution more
            (execution [OpDuplicateStdinSocket; OpEventSelectRead 7;
                        OpEventSelectWrite 7]
                       (machine_of sim_fresh_world NotInitialized)).2).1.1 = [] /\
       Forall (fun o => is_type_init_failure o = false)
         (execution more
            (execution [OpDuplicateStdinSocket; OpEventSelectRead 7;
                        OpEventSelectWrite 7]
                       (machine_of sim_fresh_world NotInitialized)).2).1.2).
Proof.
  apply (initialization_exactly_once
           [OpDuplicateStdinSocket; OpEventSelectRead 7; OpEventSelectWrite 7]
           (machine_of sim_fresh_world NotInitialized)).
  - reflexivity.
  - discriminate.
Defined.

(** When the static constructor throws, the class stays unusable and
    [WSAStartup] is not tried again. *)
Example initialization_failure_run :
  (execution [OpEventSelectRead 7; OpDuplicateStdinSocket]
     (machine_of (MkSimWorld {[ 7 := SocketObject ]} 7 (-1) false 0 ∅)
                 NotInitialized)).1
  = ([WSAStartup_call 2 (-1)],
     [Thrown (TypeInitializationException (SocketException (-1)));
      Thrown (TypeInitializationException (SocketException (-1)))]).
Proof. vm_compute. reflexivity. Qed.

(** ** Where the code departs from its documentation *)

(** C2, at a failing input.  Registering on the handle 3, which is not a
    socket: the association fails and the system's error code is
    [WSAENOTSOCK] (10038), but the exception carries [SOCKET_ERROR] (-1), the
    return value of the call; [WSAGetLastError] is never called. *)
Lemma EventSelect_carries_return_value_not_error_code :
  outcome (EventSelectRead 3 (machine_of sim_file_world Initialized))
    = Thrown (SocketException (-1)) /\
  (os_WSAGetLastError
     (os (final (EventSelectRead 3 (machine_of sim_file_world Initialized))))).1
    = 10038 /\
  filter is_WSAGetLastError
    (calls (EventSelectRead 3 (machine_of sim_file_world Initialized))) = [].
Proof. vm_compute. repeat split; reflexivity. Qed.

(** C3, at a failing input.  [WSAStartup] answers [WSAVERNOTSUPPORTED]
    (10092), a failure; the static constructor compares the answer with
    [SOCKET_ERROR] only, so it returns normally and the class counts as
    initialized. *)
Lemma SocketSupport_ignores_startup_failure :
  calls (SocketSupport (machine_of sim_refusing_world NotInitialized))
    = [WSAStartup_call 2 10092] /\
  outcome (SocketSupport (machine_of sim_refusing_world NotInitialized))
    = Returned tt /\
  type_init
    (final (public_call (OpEventSelectRead 7)
              (machine_of sim_refusing_world NotInitialized)))
    = Initialized.
Proof. vm_compute. repeat split; reflexivity. Qed.

(** C8, at a failing input.  First use of the class in a process where
    [WSAStartup] answers [WSAVERNOTSUPPORTED] (10092): the initialization of
    the subsystem does not complete, yet the constructor returns, the class
    counts as initialized, and the body of [DuplicateStdinSocket] is
    executed: it reaches the system, where the duplication fails with
    [WSANOTINITIALISED] (10093) because Winsock was never started. *)
Lemma operations_run_after_failed_startup :
  (execution [OpDuplicateStdinSocket]
     (machine_of sim_refusing_world NotInitialized)).1
    = ([WSAStartup_call 2 10092;
        GetStdHandle_call (-10) 7;
        GetCurrentProcessId_call 4242;
        WSADuplicateSocket_call 7 4242 1%positive [] (-1);
        WSAGetLastError_call 10093],
       [Thrown (SocketException 10093)]) /\
  type_init
    (execution [OpDuplicateStdinSocket]
       (machine_of sim_refusing_world NotInitialized)).2 = Initialized /\
  sim_started
    (os (execution [OpDuplicateStdinSocket]
           (machine_of sim_refusing_world NotInitialized)).2) = false.
Proof. vm_compute. repeat split; reflexivity. Qed.

(** * Further properties of the code *)

Section FurtherProperties.
Context {World : Type} `{SDK : WinSDK} `{OS : !Winsock World}.

Implicit Types m : Machine World.

(** ** DuplicateStdinSocket *)

(** X1. The operation always starts with the same three calls: it asks for
    the standard-input handle, then for the id of the current process, then
    asks the system to duplicate exactly that handle for exactly that
    process; one more call follows, whatever the outcome. *)
Theorem DuplicateStdinSocket_duplicates_stdin_for_this_process m :
  exists oldHandle pid a data err,
    (os_GetStdHandle STD_INPUT_HANDLE (os m)).1 = oldHandle /\
    take 3 (calls (DuplicateStdinSocket m))
      = [GetStdHandle_call STD_INPUT_HANDLE oldHandle;
         GetCurrentProcessId_call pid;
         WSADuplicateSocket_call oldHandle pid a data err] /\
    length (calls (DuplicateStdinSocket m)) = 4%nat.
Proof.
  destruct (DuplicateStdinSocket_run m)
    as (h & p & d & err & w & Hrun).
  assert (Hh : (os_GetStdHandle STD_INPUT_HANDLE (os m)).1 = h).
  { destruct Hrun as [(_ & r & w' & _ & Heq) | (_ & code & w' & _ & Heq)];
      apply (f_equal calls) in Heq; cbn in Heq;
      unfold DuplicateStdinSocket, mbind, M_bind, mret, M_ret, gcnew_array,
        assign_ProtocolInformation, assign_Options, GetStdHandle, syscall in Heq;
      cbn in Heq;
      destruct (os_GetStdHandle STD_INPUT_HANDLE (os m)) as [h' w1];
      cbn in Heq; now injection Heq. }
  exists h, p, (fresh (dom (heap m))), d, err.
  split; [exact Hh|].
  destruct Hrun as [(_ & r & w' & _ & ->) | (_ & code & w' & _ & ->)]; cbn;
    split; reflexivity.
Qed.

(** X2. The operation has three possible outcomes and no other: it returns
    [true]; it returns [false], and then the error code the system reported
    last is [WSAENOTSOCK]; or it throws a [SocketException] whose code is the
    one the system reported last, which is never [WSAENOTSOCK]. *)
Theorem DuplicateStdinSocket_outcomes m :
  outcome (DuplicateStdinSocket m) = Returned true
  \/ (outcome (DuplicateStdinSocket m) = Returned false /\
      last (calls (DuplicateStdinSocket m))
        = Some (WSAGetLastError_call WSAENOTSOCK))
  \/ (exists code,
        code <> WSAENOTSOCK /\
        outcome (DuplicateStdinSocket m) = Thrown (SocketException code) /\
        last (calls (DuplicateStdinSocket m))
          = Some (WSAGetLastError_call code)).
Proof.
  destruct (DuplicateStdinSocket_run m)
    as (h & p & d & err & w & [(_ & r & w' & _ & ->) | (_ & code & w' & _ & ->)]);
    cbn; [left; reflexivity|right].
  destruct (decide (code = WSAENOTSOCK)) as [->|Hne].
  - left. split; reflexivity.
  - right. exists code. split; [exact Hne|]. split; reflexivity.
Qed.

(** X3. Only the answer [SOCKET_ERROR] counts as a failure of the
    duplication: on any other answer, zero or not, the operation returns
    [true], closes the handle, and never asks for the error code. *)
Theorem DuplicateStdinSocket_other_answers_are_success m (s : SOCKET)
    (pid : Z) (lp : array_ref) (data : list Byte.byte) (ret : Z) :
  ret <> SOCKET_ERROR ->
  In (WSADuplicateSocket_call s pid lp data ret)
     (calls (DuplicateStdinSocket m)) ->
  outcome (DuplicateStdinSocket m) = Returned true /\
  filter is_WSAGetLastError (calls (DuplicateStdinSocket m)) = [] /\
  exists r, filter is_CloseHandle (calls (DuplicateStdinSocket m))
            = [CloseHandle_call s r].
Proof.
  intros Hret.
  destruct (DuplicateStdinSocket_run m)
    as (h & p & d & err & w & [(_ & r & w' & _ & ->) | (He & code & w' & _ & ->)]);
    cbn; intros Hin.
  - destruct Hin as [Hin|[Hin|[Hin|[Hin|[]]]]]; try discriminate Hin.
    injection Hin as -> _ _ _ _.
    split; [reflexivity|]. split; [reflexivity|]. exists r. reflexivity.
  - exfalso.
    destruct Hin as [Hin|[Hin|[Hin|[Hin|[]]]]]; try discriminate Hin.
    injection Hin as _ _ _ _ Herr. congruence.
Qed.

(** X4. Two calls in a row give the caller two different arrays, and the
    second call leaves the array of the first one as it was: a record
    obtained earlier is not overwritten by a later call.  Each call adds
    exactly one array to the heap, on every outcome. *)
Theorem DuplicateStdinSocket_twice m :
  exists a1 a2,
    ProtocolInformation (out_result (final (DuplicateStdinSocket m))) = Some a1 /\
    ProtocolInformation
      (out_result (final (DuplicateStdinSocket (final (DuplicateStdinSocket m)))))
      = Some a2 /\
    a1 <> a2 /\
    heap (final (DuplicateStdinSocket (final (DuplicateStdinSocket m)))) !! a1
      = heap (final (DuplicateStdinSocket m)) !! a1 /\
    dom (heap (final (DuplicateStdinSocket m))) = {[a1]} ∪ dom (heap m) /\
    dom (heap (final (DuplicateStdinSocket (final (DuplicateStdinSocket m)))))
      = {[a2]} ∪ ({[a1]} ∪ dom (heap m)).
Proof.
  assert (Hone : forall m0, exists blob,
             out_result (final (DuplicateStdinSocket m0))
               = MkSocketInformation (Some (fresh (dom (heap m0)))) Listening /\
             heap (final (DuplicateStdinSocket m0))
               = <[fresh (dom (heap m0)) := blob]> (heap m0)).
  { intros m0.
    destruct (DuplicateStdinSocket_run m0)
      as (h & p & d & err & w & [(_ & r & w' & _ & ->) | (_ & code & w' & _ & ->)]);
      cbn; eexists; split; reflexivity. }
  destruct (Hone m) as (b1 & Hr1 & Hh1).
  destruct (Hone (final (DuplicateStdinSocket m))) as (b2 & Hr2 & Hh2).
  set (a1 := fresh (dom (heap m))) in *.
  set (a2 := fresh (dom (heap (final (DuplicateStdinSocket m))))) in *.
  assert (Hne : a1 <> a2).
  { intros Heq. pose proof (is_fresh (dom (heap (final (DuplicateStdinSocket m)))))
      as Hfresh.
    fold a2 in Hfresh. rewrite <- Heq, Hh1 in Hfresh.
    apply Hfresh. rewrite dom_insert_L. set_solver. }
  exists a1, a2.
  rewrite Hr1, Hr2. cbn.
  split; [reflexivity|]. split; [reflexivity|]. split; [exact Hne|].
  split; [rewrite Hh2; apply lookup_insert_ne; congruence|].
  split; [rewrite Hh1; apply dom_insert_L|].
  rewrite Hh2, dom_insert_L, Hh1, dom_insert_L. reflexivity.
Qed.

(** ** EventSelectRead and EventSelectWrite *)

(** X6. Whenever a registration returns a handle, the handle owns its
    event ([ownsHandle] is set), the event is the one created in that very
    call, the given socket handle fits a 32-bit integer, and the system
    accepted the association of that event with that socket. *)
Theorem EventSelect_returned_handle m (f : IntPtr -> M World SafeWaitHandle)
    (sInt : IntPtr) (h : SafeWaitHandle) :
  f = EventSelectRead \/ f = EventSelectWrite ->
  outcome (f sInt m) = Returned h ->
  ownsHandle h = true /\
  - 2 ^ 31 <= sInt < 2 ^ 31 /\
  (os_WSACreateEvent (os m)).1 = existingHandle h /\
  exists mask ret,
    ret <> SOCKET_ERROR /\
    (f = EventSelectRead /\ mask = FD_READ
     \/ f = EventSelectWrite /\ mask = FD_WRITE) /\
    calls (f sInt m)
      = [WSACreateEvent_call (existingHandle h);
         WSAEventSelect_call sInt (existingHandle h) mask ret].
Proof.
  intros Hf.
  assert (exists k, f sInt m = EventSelect sInt k m /\
                    (f = EventSelectRead /\ k = FD_READ
                     \/ f = EventSelectWrite /\ k = FD_WRITE))
    as (k & -> & Hk)
    by (destruct Hf as [-> | ->]; eexists; (split; [reflexivity|auto])).
  destruct (EventSelect_run m sInt k)
    as [(_ & ->) | (Hfit & ev & w1 & err & w2 & Hc & _ & ->)]; cbn.
  - discriminate.
  - destruct (decide (err = SOCKET_ERROR)) as [He|He]; [discriminate|].
    intros [= <-]. cbn. rewrite Hc, narrow_int32_fits by exact Hfit.
    split; [reflexivity|]. split; [exact Hfit|]. split; [reflexivity|].
    exists k, err. auto.
Qed.

(** ** A static constructor that throws *)

Lemma execution_after_failure (ops : list operation) : forall m e,
  type_init m = InitFailed e ->
  execution ops m
  = ([], map (fun _ => Thrown (TypeInitializationException e)) ops, m).
Proof.
  induction ops as [|o ops IH]; intros m e Hinit; [reflexivity|].
  cbn [execution map].
  unfold public_call at 1 2 3, static_call. rewrite Hinit. cbn.
  rewrite (IH m e Hinit). reflexivity.
Qed.

(** X7. When the [WSAStartup] of the first use answers [SOCKET_ERROR], the
    class is unusable for good: every invocation of the sequence, the first
    one included, throws a [TypeInitializationException] wrapping
    [SocketException(SOCKET_ERROR)]; that [WSAStartup] is the only call ever
    made, so no operation reaches the system; the heap and the caller's
    record are untouched. *)
Theorem initialization_failure_is_final (ops : list operation) m :
  type_init m = NotInitialized ->
  ops <> [] ->
  (os_WSAStartup (MAKEWORD 2 0) (os m)).1 = SOCKET_ERROR ->
  (execution ops m).1.1 = [WSAStartup_call (MAKEWORD 2 0) SOCKET_ERROR] /\
  (execution ops m).1.2
    = map (fun _ => Thrown (TypeInitializationException
                              (SocketException SOCKET_ERROR))) ops /\
  type_init (execution ops m).2 = InitFailed (SocketException SOCKET_ERROR) /\
  heap (execution ops m).2 = heap m /\
  out_result (execution ops m).2 = out_result m.
Proof.
  intros Hinit Hne Hfail.
  destruct ops as [|o ops]; [contradiction|].
  assert (Hcall : public_call o m
                  = MkRun (Thrown (TypeInitializationException
                                     (SocketException SOCKET_ERROR)))
                          (set_type_init (InitFailed (SocketException SOCKET_ERROR))
                             (set_os (os_WSAStartup (MAKEWORD 2 0) (os m)).2 m))
                          [WSAStartup_call (MAKEWORD 2 0) SOCKET_ERROR]).
  { unfold public_call, static_call. rewrite Hinit.
    destruct (SocketSupport_run m) as (err & w & Hstart & ->).
    rewrite Hstart in *. cbn in Hfail. subst err.
    rewrite decide_True by reflexivity. reflexivity. }
  rewrite execution_cons, Hcall. cbn [outcome final calls].
  rewrite (execution_after_failure ops _ (SocketException SOCKET_ERROR))
    by reflexivity.
  cbn. repeat split.
Qed.

(** X8. The first use of the class starts Winsock even when the invocation
    itself fails before reaching the system: a registration on a handle that
    does not fit a 32-bit integer still runs the static constructor, then
    throws [OverflowException]; if the constructor did not throw, the class
    is initialized afterwards and the only call made is that [WSAStartup]. *)
Theorem first_use_initializes_before_overflow m (sInt : IntPtr) (o : operation) :
  o = OpEventSelectRead sInt \/ o = OpEventSelectWrite sInt ->
  type_init m = NotInitialized ->
  ~ (- 2 ^ 31 <= sInt < 2 ^ 31) ->
  (os_WSAStartup (MAKEWORD 2 0) (os m)).1 <> SOCKET_ERROR ->
  outcome (public_call o m) = Thrown OverflowException /\
  type_init (final (public_call o m)) = Initialized /\
  calls (public_call o m)
    = [WSAStartup_call (MAKEWORD 2 0) (os_WSAStartup (MAKEWORD 2 0) (os m)).1].
Proof.
  intros Ho Hinit Hbig Hok.
  unfold public_call, static_call. rewrite Hinit.
  destruct (SocketSupport_run m) as (err & w & Hstart & ->).
  rewrite Hstart in *. cbn [fst] in *.
  rewrite decide_False by exact Hok. cbn [outcome final calls].
  assert (Hbody : op_body o (set_type_init Initialized (set_os w m))
                  = MkRun (Thrown OverflowException)
                          (set_type_init Initialized (set_os w m)) []).
  { destruct Ho as [-> | ->]; unfold op_body, mbind, M_bind, EventSelectRead,
      EventSelectWrite.
    - destruct (EventSelect_run (set_type_init Initialized (set_os w m))
                  sInt FD_READ) as [(_ & ->) | (Hfit & _)]; [|contradiction].
      reflexivity.
    - destruct (EventSelect_run (set_type_init Initialized (set_os w m))
                  sInt FD_WRITE) as [(_ & ->) | (Hfit & _)]; [|contradiction].
      reflexivity. }
  rewrite Hbody. cbn. repeat split.
Qed.

End FurtherProperties.

(** ** Runs of the further properties on the simulated system *)

(** Run of X3: standard input is the socket 7 and the duplication answers 0. *)
Lemma DuplicateStdinSocket_other_answers_are_success_witness :
  outcome (DuplicateStdinSocket (machine_of sim_socket_world Initialized))
    = Returned true /\
  filter is_WSAGetLastError
    (calls (DuplicateStdinSocket (machine_of sim_socket_world Initialized))) = [] /\
  exists r,
    filter is_CloseHandle
      (calls (DuplicateStdinSocket (machine_of sim_socket_world Initialized)))
    = [CloseHandle_call 7 r].
Proof.
  apply (DuplicateStdinSocket_other_answers_are_success
           (machine_of sim_socket_world Initialized)
           7 4242 1%positive sim_protocol_info 0).
  - vm_compute. discriminate.
  - vm_compute. do 2 right. left. reflexivity.
Defined.

(** Run of X6: the read registration on the socket 7 returns the handle 8. *)
Lemma EventSelect_returned_handle_witness :
  ownsHandle (MkSafeWaitHandle 8 true) = true /\
  - 2 ^ 31 <= 7 < 2 ^ 31 /\
  (os_WSACreateEvent (os (machine_of sim_socket_world Initialized))).1
    = existingHandle (MkSafeWaitHandle 8 true) /\
  exists mask ret,
    ret <> SOCKET_ERROR /\
    (EventSelectRead = EventSelectRead /\ mask = FD_READ
     \/ EventSelectRead = EventSelectWrite /\ mask = FD_WRITE) /\
    calls (EventSelectRead 7 (machine_of sim_socket_world Initialized))
      = [WSACreateEvent_call (existingHandle (MkSafeWaitHandle 8 true));
         WSAEventSelect_call 7 (existingHandle (MkSafeWaitHandle 8 true))
           mask ret].
Proof.
  apply (EventSelect_returned_handle (machine_of sim_socket_world Initialized)
           EventSelectRead 7 (MkSafeWaitHandle 8 true)).
  - left. reflexivity.
  - vm_compute. reflexivity.
Defined.

(** A process in which [WSAStartup] answers [SOCKET_ERROR]. *)
Lemma initialization_failure_is_final_witness :
  (execution [OpEventSelectRead 7; OpDuplicateStdinSocket]
     (machine_of (MkSimWorld {[ 7 := SocketObject ]} 7 (-1) false 0 ∅)
                 NotInitialized)).1.1
    = [WSAStartup_call (MAKEWORD 2 0) SOCKET_ERROR] /\
  (execution [OpEventSelectRead 7; OpDuplicateStdinSocket]
     (machine_of (MkSimWorld {[ 7 := SocketObject ]} 7 (-1) false 0 ∅)
                 NotInitialized)).1.2
    = map (fun _ => Thrown (TypeInitializationException
                              (SocketException SOCKET_ERROR)))
          [OpEventSelectRead 7; OpDuplicateStdinSocket] /\
  type_init
    (execution [OpEventSelectRead 7; OpDuplicateStdinSocket]
       (machine_of (MkSimWorld {[ 7 := SocketObject ]} 7 (-1) false 0 ∅)
                   NotInitialized)).2
    = InitFailed (SocketException SOCKET_ERROR) /\
  heap
    (execution [OpEventSelectRead 7; OpDuplicateStdinSocket]
       (machine_of (MkSimWorld {[ 7 := SocketObject ]} 7 (-1) false 0 ∅)
                   NotInitialized)).2
    = heap (machine_of (MkSimWorld {[ 7 := SocketObject ]} 7 (-1) false 0 ∅)
                       NotInitialized) /\
  out_result
    (execution [OpEventSelectRead 7; OpDuplicateStdinSocket]
       (machine_of (MkSimWorld {[ 7 := SocketObject ]} 7 (-1) false 0 ∅)
                   NotInitialized)).2
    = out_result (machine_of (MkSimWorld {[ 7 := SocketObject ]} 7 (-1) false 0 ∅)
                             NotInitialized).
Proof.
  apply (initialization_failure_is_final
           [OpEventSelectRead 7; OpDuplicateStdinSocket]
           (machine_of (MkSimWorld {[ 7 := SocketObject ]} 7 (-1) false 0 ∅)
                       NotInitialized)).
  - reflexivity.
  - discriminate.
  - vm_compute. reflexivity.
Defined.

(** Run of X8: first use with a handle of a 64-bit process that does not
    fit. *)
Lemma first_use_initializes_before_overflow_witness :
  outcome (public_call (OpEventSelectRead (2 ^ 32 + 7))
             (machine_of sim_fresh_world NotInitialized))
    = Thrown OverflowException /\
  type_init (final (public_call (OpEventSelectRead (2 ^ 32 + 7))
                      (machine_of sim_fresh_world NotInitialized)))
    = Initialized /\
  calls (public_call (OpEventSelectRead (2 ^ 32 + 7))
           (machine_of sim_fresh_world NotInitialized))
    = [WSAStartup_call (MAKEWORD 2 0)
         (os_WSAStartup (MAKEWORD 2 0)
            (os (machine_of sim_fresh_world NotInitialized))).1].
Proof.
  apply (first_use_initializes_before_overflow
           (machine_of sim_fresh_world NotInitialized) (2 ^ 32 + 7)
           (OpEventSelectRead (2 ^ 32 + 7))).
  - left. reflexivity.
  - reflexivity.
  - lia.
  - vm_compute. discriminate.
Defined.
